(** * DSCaptureDevice JNI header: the declarations and what they promise

    The repository consists of one machine generated header,
    [org_jitsi_impl_neomedia_jmfext_media_protocol_directshow_DSCaptureDevice.h].
    It holds no executable code, so the object of study is the text itself:
    the header is embedded line by line, a scanner splits it into top-level
    elements (directives, comments, linkage wrapper, prototypes), the doc
    comments and prototypes are parsed into records, and a model of the
    conditional-inclusion directives says which declarations a translation
    unit receives. *)

From stdpp Require Import gmap strings list.
From Stdlib Require Import Ascii String.

Local Open Scope string_scope.
Local Open Scope list_scope.

(** ** String helpers used by the scanner *)

Module Str.

Definition starts_with (p s : string) : bool := String.prefix p s.

Definition ends_with (p s : string) : bool :=
  String.prefix (String.rev p) (String.rev s).

Fixpoint contains (p s : string) : bool :=
  String.prefix p s ||
  match s with
  | EmptyString => false
  | String _ s' => contains p s'
  end.

Fixpoint drop_spaces (s : string) : string :=
  match s with
  | String c s' => if Ascii.is_space c then drop_spaces s' else s
  | EmptyString => EmptyString
  end.

Definition trim (s : string) : string :=
  String.rev (drop_spaces (String.rev (drop_spaces s))).

Definition is_blank (s : string) : bool :=
  match drop_spaces s with EmptyString => true | _ => false end.

(** [split_at c s] cuts [s] at the first occurrence of [c]; [None] when
    [c] does not occur. *)
Fixpoint split_at (c : ascii) (s : string) : option (string * string) :=
  match s with
  | EmptyString => None
  | String a s' =>
      if Ascii.eqb a c then Some (EmptyString, s')
      else match split_at c s' with
           | Some (l, r) => Some (String a l, r)
           | None => None
           end
  end.

(** All the pieces of [s] between occurrences of [c]. *)
Fixpoint split_on_go (c : ascii) (cur : string) (s : string) : list string :=
  match s with
  | EmptyString => [String.rev cur]
  | String a s' =>
      if Ascii.eqb a c then String.rev cur :: split_on_go c EmptyString s'
      else split_on_go c (String a cur) s'
  end.
Definition split_on (c : ascii) (s : string) : list string :=
  split_on_go c EmptyString s.

Fixpoint replace_char (a b : ascii) (s : string) : string :=
  match s with
  | EmptyString => EmptyString
  | String c s' => String (if Ascii.eqb c a then b else c) (replace_char a b s')
  end.

Definition lower (c : ascii) : ascii :=
  let n := nat_of_ascii c in
  if (65 <=? n)%nat && (n <=? 90)%nat then ascii_of_nat (n + 32) else c.

Fixpoint lowercase (s : string) : string :=
  match s with
  | EmptyString => EmptyString
  | String c s' => String (lower c) (lowercase s')
  end.

Definition unwords (ws : list string) : string :=
  foldr (fun w acc => match acc with
                      | EmptyString => w
                      | _ => w +:+ " " +:+ acc
                      end) EmptyString ws.

End Str.

(** ** The header, verbatim

    One string per physical line of the file (93 lines, the last one
    without a newline). The double quote character is spelled [dq]. *)

Definition dq : string := String "034"%char EmptyString.

Definition header : list string := [
  "/* DO NOT EDIT THIS FILE - it is machine generated */";
  "#include <jni.h>";
  "/* Header for class org_jitsi_impl_neomedia_jmfext_media_protocol_directshow_DSCaptureDevice */";
  "";
  "#ifndef _Included_org_jitsi_impl_neomedia_jmfext_media_protocol_directshow_DSCaptureDevice";
  "#define _Included_org_jitsi_impl_neomedia_jmfext_media_protocol_directshow_DSCaptureDevice";
  "#ifdef __cplusplus";
  ("extern " +:+ dq +:+ "C" +:+ dq +:+ " {");
  "#endif";
  "/*";
  " * Class:     org_jitsi_impl_neomedia_jmfext_media_protocol_directshow_DSCaptureDevice";
  " * Method:    getBytes";
  " * Signature: (JJI)I";
  " */";
  "JNIEXPORT jint JNICALL Java_org_jitsi_impl_neomedia_jmfext_media_protocol_directshow_DSCaptureDevice_getBytes";
  "  (JNIEnv *, jclass, jlong, jlong, jint);";
  "";
  "/*";
  " * Class:     org_jitsi_impl_neomedia_jmfext_media_protocol_directshow_DSCaptureDevice";
  " * Method:    connect";
  " * Signature: (J)V";
  " */";
  "JNIEXPORT void JNICALL Java_org_jitsi_impl_neomedia_jmfext_media_protocol_directshow_DSCaptureDevice_connect";
  "  (JNIEnv *, jobject, jlong);";
  "";
  "/*";
  " * Class:     org_jitsi_impl_neomedia_jmfext_media_protocol_directshow_DSCaptureDevice";
  " * Method:    disconnect";
  " * Signature: (J)V";
  " */";
  "JNIEXPORT void JNICALL Java_org_jitsi_impl_neomedia_jmfext_media_protocol_directshow_DSCaptureDevice_disconnect";
  "  (JNIEnv *, jobject, jlong);";
  "";
  "/*";
  " * Class:     org_jitsi_impl_neomedia_jmfext_media_protocol_directshow_DSCaptureDevice";
  " * Method:    getFormat";
  " * Signature: (J)Lorg/jitsi/impl/neomedia/jmfext/media/protocol/directshow/DSFormat;";
  " */";
  "JNIEXPORT jobject JNICALL Java_org_jitsi_impl_neomedia_jmfext_media_protocol_directshow_DSCaptureDevice_getFormat";
  "  (JNIEnv *, jobject, jlong);";
  "";
  "/*";
  " * Class:     org_jitsi_impl_neomedia_jmfext_media_protocol_directshow_DSCaptureDevice";
  " * Method:    getName";
  " * Signature: (J)Ljava/lang/String;";
  " */";
  "JNIEXPORT jstring JNICALL Java_org_jitsi_impl_neomedia_jmfext_media_protocol_directshow_DSCaptureDevice_getName";
  "  (JNIEnv *, jobject, jlong);";
  "";
  "/*";
  " * Class:     org_jitsi_impl_neomedia_jmfext_media_protocol_directshow_DSCaptureDevice";
  " * Method:    getSupportedFormats";
  " * Signature: (J)[Lorg/jitsi/impl/neomedia/jmfext/media/protocol/directshow/DSFormat;";
  " */";
  "JNIEXPORT jobjectArray JNICALL Java_org_jitsi_impl_neomedia_jmfext_media_protocol_directshow_DSCaptureDevice_getSupportedFormats";
  "  (JNIEnv *, jobject, jlong);";
  "";
  "/*";
  " * Class:     org_jitsi_impl_neomedia_jmfext_media_protocol_directshow_DSCaptureDevice";
  " * Method:    setDelegate";
  " * Signature: (JLorg/jitsi/impl/neomedia/jmfext/media/protocol/directshow/DSCaptureDevice/GrabberDelegate;)V";
  " */";
  "JNIEXPORT void JNICALL Java_org_jitsi_impl_neomedia_jmfext_media_protocol_directshow_DSCaptureDevice_setDelegate";
  "  (JNIEnv *, jobject, jlong, jobject);";
  "";
  "/*";
  " * Class:     org_jitsi_impl_neomedia_jmfext_media_protocol_directshow_DSCaptureDevice";
  " * Method:    setFormat";
  " * Signature: (JLorg/jitsi/impl/neomedia/jmfext/media/protocol/directshow/DSFormat;)I";
  " */";
  "JNIEXPORT jint JNICALL Java_org_jitsi_impl_neomedia_jmfext_media_protocol_directshow_DSCaptureDevice_setFormat";
  "  (JNIEnv *, jobject, jlong, jobject);";
  "";
  "/*";
  " * Class:     org_jitsi_impl_neomedia_jmfext_media_protocol_directshow_DSCaptureDevice";
  " * Method:    start";
  " * Signature: (J)I";
  " */";
  "JNIEXPORT jint JNICALL Java_org_jitsi_impl_neomedia_jmfext_media_protocol_directshow_DSCaptureDevice_start";
  "  (JNIEnv *, jobject, jlong);";
  "";
  "/*";
  " * Class:     org_jitsi_impl_neomedia_jmfext_media_protocol_directshow_DSCaptureDevice";
  " * Method:    stop";
  " * Signature: (J)I";
  " */";
  "JNIEXPORT jint JNICALL Java_org_jitsi_impl_neomedia_jmfext_media_protocol_directshow_DSCaptureDevice_stop";
  "  (JNIEnv *, jobject, jlong);";
  "";
  "#ifdef __cplusplus";
  "}";
  "#endif";
  "#endif"
].

(** ** JNI types

    The C types that [jni.h] gives to Java values, and the field
    descriptors of the class-file format that the doc comments quote. *)

Inductive ctype :=
| void
| jboolean | jbyte | jchar | jshort | jint | jlong | jfloat | jdouble
| jobject | jclass | jstring | jthrowable
| jobjectArray
| jbooleanArray | jbyteArray | jcharArray | jshortArray
| jintArray | jlongArray | jfloatArray | jdoubleArray
| JNIEnv_ptr.

Global Instance ctype_eq_dec : EqDecision ctype.
Proof. solve_decision. Defined.

Definition ctype_names : list (string * ctype) :=
  [ ("void", void);
    ("jboolean", jboolean); ("jbyte", jbyte); ("jchar", jchar);
    ("jshort", jshort); ("jint", jint); ("jlong", jlong);
    ("jfloat", jfloat); ("jdouble", jdouble);
    ("jobject", jobject); ("jclass", jclass); ("jstring", jstring);
    ("jthrowable", jthrowable); ("jobjectArray", jobjectArray);
    ("jbooleanArray", jbooleanArray); ("jbyteArray", jbyteArray);
    ("jcharArray", jcharArray); ("jshortArray", jshortArray);
    ("jintArray", jintArray); ("jlongArray", jlongArray);
    ("jfloatArray", jfloatArray); ("jdoubleArray", jdoubleArray);
    ("JNIEnv *", JNIEnv_ptr) ].

(** A type as written in a parameter list; white space is normalised, so
    [JNIEnv *] and [JNIEnv  *] read the same. *)
Definition ctype_of_string (s : string) : option ctype :=
  let key := Str.unwords (String.words s) in
  snd <$> List.find (fun p => String.eqb (fst p) key) ctype_names.

Inductive jprim := PZ | PB | PC | PS | PI | PJ | PF | PD.

Inductive jtype :=
| JPrim (p : jprim)
| JObject (binary_name : string)
| JArray (elem : jtype).

Record jsignature := {
  sig_params : list jtype;
  sig_return : option jtype   (* [None] is the descriptor [V] *)
}.

Definition jprim_of_ascii (c : ascii) : option jprim :=
  if Ascii.eqb c "Z" then Some PZ else
  if Ascii.eqb c "B" then Some PB else
  if Ascii.eqb c "C" then Some PC else
  if Ascii.eqb c "S" then Some PS else
  if Ascii.eqb c "I" then Some PI else
  if Ascii.eqb c "J" then Some PJ else
  if Ascii.eqb c "F" then Some PF else
  if Ascii.eqb c "D" then Some PD else None.

(** One field descriptor at the front of [s], and what follows it. *)
Fixpoint parse_field (s : string) : option (jtype * string) :=
  match s with
  | EmptyString => None
  | String c s' =>
      if Ascii.eqb c "[" then
        match parse_field s' with
        | Some (t, r) => Some (JArray t, r)
        | None => None
        end
      else if Ascii.eqb c "L" then
        match Str.split_at ";" s' with
        | Some (cls, r) => Some (JObject cls, r)
        | None => None
        end
      else
        match jprim_of_ascii c with
        | Some p => Some (JPrim p, s')
        | None => None
        end
  end.

(** Field descriptors up to the closing parenthesis. *)
Fixpoint parse_fields (fuel : nat) (s : string) : option (list jtype * string) :=
  match fuel with
  | O => None
  | S fuel' =>
      match s with
      | String c r =>
          if Ascii.eqb c ")" then Some ([], r)
          else
            match parse_field s with
            | Some (t, r') =>
                match parse_fields fuel' r' with
                | Some (ts, r'') => Some (t :: ts, r'')
                | None => None
                end
            | None => None
            end
      | EmptyString => None
      end
  end.

(** A method descriptor [(params)ret]. *)
Definition parse_descriptor (s : string) : option jsignature :=
  match s with
  | String c r =>
      if Ascii.eqb c "(" then
        match parse_fields (S (String.length r)) r with
        | Some (ps, ret) =>
            if String.eqb ret "V" then
              Some {| sig_params := ps; sig_return := None |}
            else
              match parse_field ret with
              | Some (t, EmptyString) =>
                  Some {| sig_params := ps; sig_return := Some t |}
              | _ => None
              end
        | None => None
        end
      else None
  | EmptyString => None
  end.

Definition ctype_of_jprim (p : jprim) : ctype :=
  match p with
  | PZ => jboolean | PB => jbyte | PC => jchar | PS => jshort
  | PI => jint | PJ => jlong | PF => jfloat | PD => jdouble
  end.

Definition array_ctype_of_jprim (p : jprim) : ctype :=
  match p with
  | PZ => jbooleanArray | PB => jbyteArray | PC => jcharArray
  | PS => jshortArray | PI => jintArray | PJ => jlongArray
  | PF => jfloatArray | PD => jdoubleArray
  end.

(** The native type of a Java type, as the JNI type tables give it:
    primitives by letter, [String], [Class] and [Throwable] by their own
    handle types, every other class as [jobject], arrays of primitives by
    their array types and every other array as [jobjectArray]. *)
Definition ctype_of_jtype (t : jtype) : ctype :=
  match t with
  | JPrim p => ctype_of_jprim p
  | JObject n =>
      if String.eqb n "java/lang/String" then jstring
      else if String.eqb n "java/lang/Class" then jclass
      else if String.eqb n "java/lang/Throwable" then jthrowable
      else jobject
  | JArray (JPrim p) => array_ctype_of_jprim p
  | JArray _ => jobjectArray
  end.

Definition ctype_of_return (r : option jtype) : ctype :=
  match r with
  | None => void
  | Some t => ctype_of_jtype t
  end.

(** JNI name mangling of a class or method name: the separator becomes
    an underscore and the characters that would be ambiguous are escaped. *)
Fixpoint jni_mangle (s : string) : string :=
  match s with
  | EmptyString => EmptyString
  | String c s' =>
      if Ascii.eqb c "." || Ascii.eqb c "/" then String "_" (jni_mangle s')
      else if Ascii.eqb c "_" then "_1" +:+ jni_mangle s'
      else if Ascii.eqb c ";" then "_2" +:+ jni_mangle s'
      else if Ascii.eqb c "[" then "_3" +:+ jni_mangle s'
      else String c (jni_mangle s')
  end.

Definition dots_to_underscores (s : string) : string :=
  Str.replace_char "." "_" s.

(** ** Top-level elements of the header *)

Inductive directive :=
| Include (h : string)
| Ifdef (m : string)
| Ifndef (m : string)
| Define (m : string)
| Endif
| OtherDirective (text : string).

Definition parse_directive (line : string) : directive :=
  match String.words line with
  | [k] => if String.eqb k "#endif" then Endif else OtherDirective line
  | [k; a] =>
      if String.eqb k "#include" then Include a
      else if String.eqb k "#ifdef" then Ifdef a
      else if String.eqb k "#ifndef" then Ifndef a
      else if String.eqb k "#define" then Define a
      else OtherDirective line
  | _ => OtherDirective line
  end.

Inductive element :=
| Directive (d : directive)
| Comment (text : list string)
| LinkageOpen (lang : string)      (* extern "lang" { *)
| BlockClose                       (* } *)
| Statement (text : list string)   (* lines up to the terminating ; *)
| Unknown (text : list string).

Global Instance directive_eq_dec : EqDecision directive.
Proof. solve_decision. Defined.

Global Instance element_eq_dec : EqDecision element.
Proof. solve_decision. Defined.

Inductive mode :=
| Top
| InComment (acc : list string)
| InStatement (acc : list string).

Definition linkage_open (l : string) : option string :=
  match String.words l with
  | [e; lang; b] =>
      if String.eqb e "extern" && String.eqb b "{"
         && Str.starts_with dq lang && Str.ends_with dq lang
      then Some lang else None
  | _ => None
  end.

(** The scanner: a line-driven state machine. Blank lines separate
    elements and are dropped; a comment runs to the line that closes it, a
    statement to the line that ends in a semicolon. Input that ends inside
    a comment or a statement is reported as [Unknown]. *)
Fixpoint scan (m : mode) (ls : list string) : list element :=
  match ls with
  | [] =>
      match m with
      | Top => []
      | InComment acc => [Unknown (reverse acc)]
      | InStatement acc => [Unknown (reverse acc)]
      end
  | l :: rest =>
      let t := Str.trim l in
      match m with
      | InComment acc =>
          if Str.ends_with "*/" t then Comment (reverse (l :: acc)) :: scan Top rest
          else if Str.contains "*/" t then Unknown (reverse (l :: acc)) :: scan Top rest
          else scan (InComment (l :: acc)) rest
      | InStatement acc =>
          if Str.ends_with ";" t then Statement (reverse (l :: acc)) :: scan Top rest
          else scan (InStatement (l :: acc)) rest
      | Top =>
          if Str.is_blank l then scan Top rest
          else if Str.starts_with "#" t then Directive (parse_directive l) :: scan Top rest
          else if Str.starts_with "/*" t then
            if Str.ends_with "*/" t then Comment [l] :: scan Top rest
            else if Str.contains "*/" t then Unknown [l] :: scan Top rest
            else scan (InComment [l]) rest
          else
            match linkage_open l with
            | Some lang => LinkageOpen lang :: scan Top rest
            | None =>
                if String.eqb t "}" then BlockClose :: scan Top rest
                else if Str.ends_with ";" t then Statement [l] :: scan Top rest
                else scan (InStatement [l]) rest
            end
      end
  end.

Definition elements : list element := scan Top header.

(** ** Prototypes and their doc comments *)

Record prototype := {
  proto_return : ctype;
  proto_name : string;
  proto_params : list ctype
}.

Global Instance prototype_eq_dec : EqDecision prototype.
Proof. solve_decision. Defined.

(** A statement is a prototype when it reads
    [JNIEXPORT type JNICALL name (type, ..., type);] and nothing else: a
    brace, an initialiser or a second parenthesis makes the parse fail. *)
Definition parse_prototype (text : list string) : option prototype :=
  let s := Str.unwords (Str.trim <$> text) in
  match Str.split_at "(" s with
  | Some (head, rest) =>
      match Str.split_at ")" rest with
      | Some (plist, tail) =>
          if String.eqb (Str.trim tail) ";" then
            match String.words head with
            | [ex; rt; cc; nm] =>
                if String.eqb ex "JNIEXPORT" && String.eqb cc "JNICALL" then
                  r ← ctype_of_string rt;
                  ps ← mapM ctype_of_string (Str.split_on "," plist);
                  Some {| proto_return := r; proto_name := nm; proto_params := ps |}
                else None
            | _ => None
            end
          else None
      | None => None
      end
  | None => None
  end.

(** The value of a [key] line of a doc comment, as in [ * Method:    stop]. *)
Definition strip_prefix (p s : string) : option string :=
  if Str.starts_with p s
  then Some (String.substring (String.length p) (String.length s - String.length p) s)
  else None.

Definition comment_line_body (l : string) : string :=
  match Str.drop_spaces l with
  | String c r => if Ascii.eqb c "*" then Str.drop_spaces r else String c r
  | EmptyString => EmptyString
  end.

Fixpoint comment_field (key : string) (text : list string) : option string :=
  match text with
  | [] => None
  | l :: rest =>
      match strip_prefix key (comment_line_body l) with
      | Some v => Some (Str.trim v)
      | None => comment_field key rest
      end
  end.

Record native_method := {
  doc_class : string;
  doc_method : string;
  doc_signature : string;
  decl : prototype;
  decl_lines : nat       (* physical lines the prototype is written on *)
}.

Definition native_method_of (c t : list string) : option native_method :=
  cl ← comment_field "Class:" c;
  me ← comment_field "Method:" c;
  sg ← comment_field "Signature:" c;
  p ← parse_prototype t;
  Some {| doc_class := cl; doc_method := me; doc_signature := sg;
          decl := p; decl_lines := List.length t |}.

(** Every doc comment that is directly followed by a prototype. *)
Fixpoint native_methods (es : list element) : list native_method :=
  match es with
  | [] => []
  | e :: rest =>
      match e, rest with
      | Comment c, Statement t :: _ =>
          option_list (native_method_of c t) ++ native_methods rest
      | _, _ => native_methods rest
      end
  end.

(** Every statement of the header that is a prototype, with or without a
    doc comment. *)
Definition statement_prototype (e : element) : option prototype :=
  match e with
  | Statement t => parse_prototype t
  | _ => None
  end.

Definition prototypes (es : list element) : list prototype :=
  omap statement_prototype es.

(** The class the header was generated for, and the entry point derived
    from a method name. *)
Definition class_name : string :=
  "org.jitsi.impl.neomedia.jmfext.media.protocol.directshow.DSCaptureDevice".

Definition entry_point (method : string) : string :=
  "Java_" +:+ dots_to_underscores class_name +:+ "_" +:+ method.

(** The ten declarations, under the names the header gives them. *)

Definition Java_org_jitsi_impl_neomedia_jmfext_media_protocol_directshow_DSCaptureDevice_getBytes : prototype :=
  {| proto_return := jint;
     proto_name := "Java_org_jitsi_impl_neomedia_jmfext_media_protocol_directshow_DSCaptureDevice_getBytes";
     proto_params := [JNIEnv_ptr; jclass; jlong; jlong; jint] |}.

Definition Java_org_jitsi_impl_neomedia_jmfext_media_protocol_directshow_DSCaptureDevice_connect : prototype :=
  {| proto_return := void;
     proto_name := "Java_org_jitsi_impl_neomedia_jmfext_media_protocol_directshow_DSCaptureDevice_connect";
     proto_params := [JNIEnv_ptr; jobject; jlong] |}.

Definition Java_org_jitsi_impl_neomedia_jmfext_media_protocol_directshow_DSCaptureDevice_disconnect : prototype :=
  {| proto_return := void;
     proto_name := "Java_org_jitsi_impl_neomedia_jmfext_media_protocol_directshow_DSCaptureDevice_disconnect";
     proto_params := [JNIEnv_ptr; jobject; jlong] |}.

Definition Java_org_jitsi_impl_neomedia_jmfext_media_protocol_directshow_DSCaptureDevice_getFormat : prototype :=
  {| proto_return := jobject;
     proto_name := "Java_org_jitsi_impl_neomedia_jmfext_media_protocol_directshow_DSCaptureDevice_getFormat";
     proto_params := [JNIEnv_ptr; jobject; jlong] |}.

Definition Java_org_jitsi_impl_neomedia_jmfext_media_protocol_directshow_DSCaptureDevice_getName : prototype :=
  {| proto_return := jstring;
     proto_name := "Java_org_jitsi_impl_neomedia_jmfext_media_protocol_directshow_DSCaptureDevice_getName";
     proto_params := [JNIEnv_ptr; jobject; jlong] |}.

Definition Java_org_jitsi_impl_neomedia_jmfext_media_protocol_directshow_DSCaptureDevice_getSupportedFormats : prototype :=
  {| proto_return := jobjectArray;
     proto_name := "Java_org_jitsi_impl_neomedia_jmfext_media_protocol_directshow_DSCaptureDevice_getSupportedFormats";
     proto_params := [JNIEnv_ptr; jobject; jlong] |}.

Definition Java_org_jitsi_impl_neomedia_jmfext_media_protocol_directshow_DSCaptureDevice_setDelegate : prototype :=
  {| proto_return := void;
     proto_name := "Java_org_jitsi_impl_neomedia_jmfext_media_protocol_directshow_DSCaptureDevice_setDelegate";
     proto_params := [JNIEnv_ptr; jobject; jlong; jobject] |}.

Definition Java_org_jitsi_impl_neomedia_jmfext_media_protocol_directshow_DSCaptureDevice_setFormat : prototype :=
  {| proto_return := jint;
     proto_name := "Java_org_jitsi_impl_neomedia_jmfext_media_protocol_directshow_DSCaptureDevice_setFormat";
     proto_params := [JNIEnv_ptr; jobject; jlong; jobject] |}.

Definition Java_org_jitsi_impl_neomedia_jmfext_media_protocol_directshow_DSCaptureDevice_start : prototype :=
  {| proto_return := jint;
     proto_name := "Java_org_jitsi_impl_neomedia_jmfext_media_protocol_directshow_DSCaptureDevice_start";
     proto_params := [JNIEnv_ptr; jobject; jlong] |}.

Definition Java_org_jitsi_impl_neomedia_jmfext_media_protocol_directshow_DSCaptureDevice_stop : prototype :=
  {| proto_return := jint;
     proto_name := "Java_org_jitsi_impl_neomedia_jmfext_media_protocol_directshow_DSCaptureDevice_stop";
     proto_params := [JNIEnv_ptr; jobject; jlong] |}.

Definition declared_functions : list prototype :=
  [ Java_org_jitsi_impl_neomedia_jmfext_media_protocol_directshow_DSCaptureDevice_getBytes;
    Java_org_jitsi_impl_neomedia_jmfext_media_protocol_directshow_DSCaptureDevice_connect;
    Java_org_jitsi_impl_neomedia_jmfext_media_protocol_directshow_DSCaptureDevice_disconnect;
    Java_org_jitsi_impl_neomedia_jmfext_media_protocol_directshow_DSCaptureDevice_getFormat;
    Java_org_jitsi_impl_neomedia_jmfext_media_protocol_directshow_DSCaptureDevice_getName;
    Java_org_jitsi_impl_neomedia_jmfext_media_protocol_directshow_DSCaptureDevice_getSupportedFormats;
    Java_org_jitsi_impl_neomedia_jmfext_media_protocol_directshow_DSCaptureDevice_setDelegate;
    Java_org_jitsi_impl_neomedia_jmfext_media_protocol_directshow_DSCaptureDevice_setFormat;
    Java_org_jitsi_impl_neomedia_jmfext_media_protocol_directshow_DSCaptureDevice_start;
    Java_org_jitsi_impl_neomedia_jmfext_media_protocol_directshow_DSCaptureDevice_stop ].

(** Explicit arguments: what follows [JNIEnv *] and the receiver. *)
Definition explicit_params (p : prototype) : list ctype :=
  drop 2 (proto_params p).

Definition receiver (p : prototype) : option ctype :=
  proto_params p !! 1.

(** The parameter list and return type that a descriptor asks for, given
    the receiver: [jclass] for a static method, [jobject] otherwise. *)
Definition prototype_matches (sg : jsignature) (p : prototype) : bool :=
  match proto_params p with
  | e :: r :: args =>
      bool_decide (e = JNIEnv_ptr)
      && (bool_decide (r = jclass) || bool_decide (r = jobject))
      && bool_decide (args = ctype_of_jtype <$> sig_params sg)
      && bool_decide (proto_return p = ctype_of_return (sig_return sg))
  | _ => false
  end.

Definition agrees_with_doc (m : native_method) : bool :=
  match parse_descriptor (doc_signature m) with
  | Some sg => prototype_matches sg (decl m)
  | None => false
  end.

(** ** Conditional inclusion

    The directives the header uses are [#include], [#ifdef], [#ifndef],
    [#define] (of an empty macro) and [#endif]. The state of a translation
    unit is the set of defined macro names and the stack of open
    conditional groups, one flag per group saying whether it is taken.
    [jni.h] is not part of the repository: what reading a system header
    does to the macro table is a parameter. *)

Definition _Included_org_jitsi_impl_neomedia_jmfext_media_protocol_directshow_DSCaptureDevice : string :=
  "_Included_org_jitsi_impl_neomedia_jmfext_media_protocol_directshow_DSCaptureDevice".

Abbreviation include_guard :=
  _Included_org_jitsi_impl_neomedia_jmfext_media_protocol_directshow_DSCaptureDevice.

Definition cplusplus : string := "__cplusplus".

Definition C_language : string := dq +:+ "C" +:+ dq.

Record pp_state := {
  defined : gset string;
  conds : list bool
}.

Definition active (st : pp_state) : bool := forallb id (conds st).

Section Preprocessor.

Variable system_header : string → gset string → gset string.

(** One element: the next state and what reaches the compiler proper.
    Comments are white space by then; text in a group that is not taken
    is skipped, and so are the directives in it, except that nested
    conditionals are still matched up. *)
Definition pp_step (st : pp_state) (e : element) : pp_state * list element :=
  match e with
  | Comment _ => (st, [])
  | Directive (Ifdef m) =>
      ({| defined := defined st;
          conds := bool_decide (m ∈ defined st) :: conds st |}, [])
  | Directive (Ifndef m) =>
      ({| defined := defined st;
          conds := bool_decide (m ∉ defined st) :: conds st |}, [])
  | Directive Endif =>
      ({| defined := defined st; conds := tail (conds st) |}, [])
  | Directive (Define m) =>
      ({| defined := if active st then {[ m ]} ∪ defined st else defined st;
          conds := conds st |}, [])
  | Directive (Include h) =>
      ({| defined := if active st then system_header h (defined st) else defined st;
          conds := conds st |}, [])
  | Directive (OtherDirective _) | LinkageOpen _ | BlockClose
  | Statement _ | Unknown _ =>
      (st, if active st then [e] else [])
  end.

Fixpoint preprocess (st : pp_state) (es : list element) : pp_state * list element :=
  match es with
  | [] => (st, [])
  | e :: rest =>
      let r := pp_step st e in
      let r' := preprocess (fst r) rest in
      (fst r', snd r ++ snd r')
  end.

(** Reading the header once in a translation unit whose macro table is
    [D]: the new table and the text the header contributes. *)
Definition include_header (D : gset string) : gset string * list element :=
  let r := preprocess {| defined := D; conds := [] |} elements in
  (defined (fst r), snd r).


End Preprocessor.


(** ** Language linkage

    What the compiler proper sees after preprocessing: linkage blocks and
    statements. Each prototype gets the linkage of the innermost block
    around it, or the default of the language that is being compiled.
    Anything else in the stream, a block that is closed but was not
    opened, or one left open, is an error. *)

Inductive linkage :=
| DefaultLinkage
| ExternLinkage (lang : string).

Global Instance linkage_eq_dec : EqDecision linkage.
Proof. solve_decision. Defined.

Definition current_linkage (blocks : list string) : linkage :=
  match blocks with
  | lang :: _ => ExternLinkage lang
  | [] => DefaultLinkage
  end.

Fixpoint link (blocks : list string) (es : list element)
  : option (list (prototype * linkage)) :=
  match es with
  | [] =>
      match blocks with
      | [] => Some []
      | _ :: _ => None
      end
  | LinkageOpen lang :: rest => link (lang :: blocks) rest
  | BlockClose :: rest =>
      match blocks with
      | _ :: bs => link bs rest
      | [] => None
      end
  | Statement t :: rest =>
      p ← parse_prototype t;
      ds ← link blocks rest;
      Some ((p, current_linkage blocks) :: ds)
  | _ :: _ => None
  end.

(** The functions of C linkage: those in an [extern "C"] block and, when
    the translation unit is C, all of them. *)
Definition has_C_linkage (cxx : bool) (l : linkage) : bool :=
  match l with
  | ExternLinkage lang => String.eqb lang C_language
  | DefaultLinkage => negb cxx
  end.

(** ** Vocabulary *)

(** Fragments of the names that threads, locks and atomics go by in C, in
    C++, on POSIX and on Windows, in lower case. *)
Definition concurrency_words : list string :=
  [ "thread"; "mutex"; "atomic"; "lock"; "volatile"; "synchron";
    "semaphore"; "critical"; "monitor"; "concurren"; "interlocked";
    "fence"; "barrier"; "condition"; "future"; "async"; "spin";
    "parallel"; "pragma" ].

Definition mentions (w l : string) : bool :=
  Str.contains w (Str.lowercase l).

(** The types and directives the header is free to use without bringing
    in anything but opaque JNI values. *)
Definition jni_value_types : list ctype :=
  [ void; jint; jlong; jobject; jclass; jstring; jobjectArray; JNIEnv_ptr ].

Definition is_conditional_or_include (d : directive) : bool :=
  match d with
  | Include _ | Ifdef _ | Ifndef _ | Define _ | Endif => true
  | OtherDirective _ => false
  end.

(** ** Properties the declarations are checked against *)

Definition method_names : list string :=
  [ "getBytes"; "connect"; "disconnect"; "getFormat"; "getName";
    "getSupportedFormats"; "setDelegate"; "setFormat"; "start"; "stop" ].

Definition statements (es : list element) : list (list string) :=
  omap (fun e => match e with Statement t => Some t | _ => None end) es.

(** Text the scanner could not classify. *)
Definition unknowns (es : list element) : list (list string) :=
  omap (fun e => match e with Unknown t => Some t | _ => None end) es.

(** Nothing but [jlong] crosses the boundary: in the explicit arguments
    and, unless the function returns nothing, in the result. *)
Definition only_jlong_handles (p : prototype) : Prop :=
  Forall (eq jlong) (explicit_params p)
  ∧ (proto_return p ≠ void → proto_return p = jlong).

(** The prototype is the one its doc comment describes. *)
Definition agrees_with_descriptor (m : native_method) : Prop :=
  ∃ sg r,
    parse_descriptor (doc_signature m) = Some sg
    ∧ (r = jclass ∨ r = jobject)
    ∧ proto_params (decl m) = JNIEnv_ptr :: r :: (ctype_of_jtype <$> sig_params sg)
    ∧ proto_return (decl m) = ctype_of_return (sig_return sg).

Definition is_reference_type (t : ctype) : bool :=
  match t with
  | jobject | jclass | jstring | jthrowable | jobjectArray
  | jbooleanArray | jbyteArray | jcharArray | jshortArray
  | jintArray | jlongArray | jfloatArray | jdoubleArray => true
  | _ => false
  end.

Definition returns (t : ctype) (p : prototype) : bool :=
  bool_decide (proto_return p = t).

(** An element that declares and does nothing else; a prototype counts
    when it is written on [n] physical lines. *)
Definition declaration_only (n : nat) (e : element) : bool :=
  match e with
  | Directive _ => true
  | Comment _ => true
  | LinkageOpen lang => String.eqb lang C_language
  | BlockClose => true
  | Statement t =>
      match parse_prototype t with
      | Some _ => Nat.eqb (List.length t) n
      | None => false
      end
  | Unknown _ => false
  end.

(** Text that is a statement, as opposed to a line of the wrapper or
    anything the preprocessor should have consumed. *)
Definition is_statement (e : element) : bool :=
  match e with
  | Statement _ => true
  | _ => false
  end.

(** ** The forms the text of the header takes *)

(** Occurrences of [p] in [s]. *)
Fixpoint occurrences (p s : string) : nat :=
  (if String.prefix p s then 1 else 0)
  + match s with
    | EmptyString => 0
    | String _ s' => occurrences p s'
    end.

Definition is_identifier_char (c : ascii) : bool :=
  let n := nat_of_ascii c in
  ((48 <=? n)%nat && (n <=? 57)%nat)
  || ((65 <=? n)%nat && (n <=? 90)%nat)
  || ((97 <=? n)%nat && (n <=? 122)%nat)
  || Ascii.eqb c "_".

Fixpoint all_identifier_chars (s : string) : bool :=
  match s with
  | EmptyString => true
  | String c s' => is_identifier_char c && all_identifier_chars s'
  end.

Definition is_identifier (s : string) : bool :=
  negb (String.eqb s "") && all_identifier_chars s.

(** A comment is opened once, at its start, and closed once, at its end:
    no code stands between two comments of one line. *)
Definition comment_brackets (c : list string) : bool :=
  let s := String.concat " " c in
  Nat.eqb (occurrences "/*" s) 1 && Nat.eqb (occurrences "*/" s) 1
  && Str.starts_with "/*" (Str.trim s) && Str.ends_with "*/" (Str.trim s).

(** The second line of a prototype: nothing but the parenthesised
    parameter list and the semicolon. *)
Definition parameter_line (l : string) : option (list ctype) :=
  match Str.split_at "(" l with
  | Some (pre, r) =>
      match Str.split_at ")" r with
      | Some (plist, tail) =>
          if Str.is_blank pre && String.eqb (Str.trim tail) ";"
          then mapM ctype_of_string (Str.split_on "," plist)
          else None
      | None => None
      end
  | None => None
  end.

(** The first line of a prototype: [JNIEXPORT], the return type,
    [JNICALL] and the name, and nothing else. *)
Definition name_line (l : string) : option (ctype * string) :=
  match String.words l with
  | [ex; rt; cc; nm] =>
      if String.eqb ex "JNIEXPORT" && String.eqb cc "JNICALL" && is_identifier nm
      then r ← ctype_of_string rt; Some (r, nm)
      else None
  | _ => None
  end.

(** A statement written as the header writes its prototypes: two lines,
    the return type and the name on the first, the parameter list and the
    semicolon on the second, and together the prototype they parse to. *)
Definition two_line_prototype (t : list string) : bool :=
  match t with
  | [l1; l2] =>
      match name_line l1, parameter_line l2, parse_prototype t with
      | Some (r, nm), Some ps, Some p =>
          bool_decide (p = {| proto_return := r; proto_name := nm; proto_params := ps |})
      | _, _, _ => false
      end
  | _ => false
  end.

(** The directives of the header: the include of [jni.h] and the
    conditionals on the guard and on [__cplusplus]. *)
Definition header_directives : list directive :=
  [ Include "<jni.h>"; Ifndef include_guard; Define include_guard;
    Ifdef cplusplus; Endif ].

Definition is_wrapper_line (e : element) : bool :=
  match e with
  | LinkageOpen _ | BlockClose => true
  | _ => false
  end.

(** An element that only declares, laid out as the header lays it out. *)
Definition declaration_layout (e : element) : bool :=
  match e with
  | Directive d => bool_decide (d ∈ header_directives)
  | Comment c => comment_brackets c
  | LinkageOpen lang => String.eqb lang C_language
  | BlockClose => true
  | Statement t => two_line_prototype t
  | Unknown _ => false
  end.

(** The two comments at the head of the file. *)
Definition banner_comments : list (list string) :=
  [ ["/* DO NOT EDIT THIS FILE - it is machine generated */"];
    ["/* Header for class " +:+ dots_to_underscores class_name +:+ " */"] ].

(** A line [ * key value] of a doc comment whose value is one word. *)
Definition field_line (key l : string) : option string :=
  if Str.starts_with " * " l then
    match strip_prefix key (comment_line_body l) with
    | Some v =>
        match String.words v with
        | [w] => Some w
        | _ => None
        end
    | None => None
    end
  else None.

(** A doc comment that holds the three fields and nothing else. *)
Definition doc_comment_fields (c : list string) : option (string * string * string) :=
  match c with
  | [o; l1; l2; l3; cl] =>
      if String.eqb o "/*" && String.eqb cl " */" then
        k ← field_line "Class:" l1;
        me ← field_line "Method:" l2;
        sg ← field_line "Signature:" l3;
        Some (k, me, sg)
      else None
  | _ => None
  end.

Fixpoint jtype_classes (t : jtype) : list string :=
  match t with
  | JPrim _ => []
  | JObject n => [n]
  | JArray t' => jtype_classes t'
  end.

Definition signature_classes (sg : jsignature) : list string :=
  List.concat (jtype_classes <$> sig_params sg)
  ++ match sig_return sg with
     | Some t => jtype_classes t
     | None => []
     end.

(** The Java classes the descriptors of the header name. *)
Definition referenced_classes : list string :=
  [ "org/jitsi/impl/neomedia/jmfext/media/protocol/directshow/DSFormat";
    "java/lang/String";
    "org/jitsi/impl/neomedia/jmfext/media/protocol/directshow/DSCaptureDevice/GrabberDelegate" ].

(** An element that is one of the forms of a generated JNI header, all of
    whose names are accounted for: a directive of the list above, one of
    the two banners, a doc comment of three one-word fields naming the
    class, one of the ten methods and a descriptor over the classes
    above, a line of the wrapper, or a prototype of one of the ten entry
    points over the JNI value types. Free text, a declaration of anything
    else and a type from outside [jni.h] are none of these. *)
Definition carries_only_jni (e : element) : bool :=
  match e with
  | Directive d => bool_decide (d ∈ header_directives)
  | Comment c =>
      bool_decide (c ∈ banner_comments)
      || match doc_comment_fields c with
         | Some (k, me, sg) =>
             String.eqb k (dots_to_underscores class_name)
             && bool_decide (me ∈ method_names)
             && match parse_descriptor sg with
                | Some s =>
                    forallb (fun n => bool_decide (n ∈ referenced_classes))
                            (signature_classes s)
                | None => false
                end
         | None => false
         end
  | LinkageOpen lang => String.eqb lang C_language
  | BlockClose => true
  | Statement t =>
      match parse_prototype t with
      | Some p =>
          forallb (fun ty => bool_decide (ty ∈ jni_value_types))
                  (proto_return p :: proto_params p)
          && bool_decide (proto_name p ∈ entry_point <$> method_names)
      | None => false
      end
  | Unknown _ => false
  end.


(** A stand-in for [jni.h], to run the preprocessor model on: it defines
    its own guard and the two calling-convention macros and leaves every
    other macro alone. *)
Definition sample_system_header (h : string) (D : gset string) : gset string :=
  {[ "_JAVASOFT_JNI_H_"; "JNIEXPORT"; "JNICALL" ]} ∪ D.

(** The scanner's result and the parsed tables, in normal form. *)
Definition elements_nf : list element := Eval vm_compute in elements.

Definition statement_elements : list element :=
  Eval vm_compute in
    List.filter (fun e => match e with Statement _ => true | _ => false end)
                elements.

Definition method_table : list native_method :=
  Eval vm_compute in native_methods elements.

(** * Facts *)

Lemma elements_eq : elements = elements_nf.
Proof. vm_compute. reflexivity. Qed.

Lemma native_methods_eq : native_methods elements = method_table.
Proof. vm_compute. reflexivity. Qed.

Lemma prototypes_eq : prototypes elements = declared_functions.
Proof. vm_compute. reflexivity. Qed.

Lemma every_prototype_documented :
  decl <$> native_methods elements = prototypes elements.
Proof. vm_compute. reflexivity. Qed.

(** Closed decidable goals are settled by running their decision
    procedure. *)
Ltac decide_by_computation :=
  apply (bool_decide_unpack _); vm_compute; exact I.

Lemma forallb_Forall {A} (f : A → bool) (P : A → Prop) (l : list A) :
  (∀ x, f x = true → P x) → forallb f l = true → Forall P l.
Proof.
  intros Hsound Hall. apply Forall_forall. intros x Hx. apply Hsound.
  rewrite forallb_forall in Hall. apply Hall. by apply list_elem_of_In.
Qed.

Lemma Forall_by_decision {A} (P : A → Prop) `{!∀ x, Decision (P x)} (l : list A) :
  forallb (fun x => bool_decide (P x)) l = true → Forall P l.
Proof.
  apply forallb_Forall. intros x Hx. by apply bool_decide_eq_true in Hx.
Qed.

(** A property that can be decided holds of every declared function as
    soon as it evaluates to [true] on the ten of them. *)
Lemma Forall_declared (P : prototype → Prop) `{!∀ p, Decision (P p)} :
  forallb (fun p => bool_decide (P p)) declared_functions = true →
  Forall P (prototypes elements).
Proof.
  rewrite prototypes_eq. apply (Forall_by_decision _).
Qed.

(** ** The scanner and the parsers tell declarations from other text *)

Example body_is_not_a_prototype :
  parse_prototype ["JNIEXPORT jint JNICALL f"; "  (JNIEnv *, jobject) { return 0; }"]
  = None.
Proof. vm_compute. reflexivity. Qed.

Example variable_is_not_a_prototype :
  scan Top ["static int counter = 0;"] = [Statement ["static int counter = 0;"]]
  ∧ parse_prototype ["static int counter = 0;"] = None
  ∧ declaration_only 1 (Statement ["static int counter = 0;"]) = false.
Proof. repeat split; vm_compute; reflexivity. Qed.

Example unterminated_text_is_unknown :
  scan Top ["/* open"; "JNIEXPORT void JNICALL f"] = [Unknown ["/* open"; "JNIEXPORT void JNICALL f"]].
Proof. vm_compute. reflexivity. Qed.

Example one_line_prototype_parses :
  parse_prototype ["JNIEXPORT void JNICALL f (JNIEnv *, jobject, jlong);"]
  = Some {| proto_return := void; proto_name := "f";
            proto_params := [JNIEnv_ptr; jobject; jlong] |}.
Proof. vm_compute. reflexivity. Qed.

Example descriptor_of_setDelegate :
  parse_descriptor
    "(JLorg/jitsi/impl/neomedia/jmfext/media/protocol/directshow/DSCaptureDevice/GrabberDelegate;)V"
  = Some {| sig_params :=
              [JPrim PJ;
               JObject "org/jitsi/impl/neomedia/jmfext/media/protocol/directshow/DSCaptureDevice/GrabberDelegate"];
            sig_return := None |}.
Proof. vm_compute. reflexivity. Qed.

Example malformed_descriptor_is_rejected :
  parse_descriptor "(JLjava/lang/String)V" = None
  ∧ parse_descriptor "(J)" = None
  ∧ parse_descriptor "J)V" = None.
Proof. repeat split; vm_compute; reflexivity. Qed.

(** ** Which functions are declared *)

(** C1: the header declares exactly ten native entry points, for the
    methods getBytes, connect, disconnect, getFormat, getName,
    getSupportedFormats, setDelegate, setFormat, start and stop, and no
    others: it holds ten statements and no text that is left
    unclassified, each statement is the prototype of one of these methods,
    and each is announced by a doc comment for that method. *)
Theorem declares_exactly_ten_methods :
  List.length (statements elements) = 10
  ∧ unknowns elements = []
  ∧ prototypes elements = declared_functions
  ∧ proto_name <$> prototypes elements = entry_point <$> method_names
  ∧ doc_method <$> native_methods elements = method_names
  ∧ decl <$> native_methods elements = prototypes elements
  ∧ NoDup method_names.
Proof.
  repeat split; try (vm_compute; reflexivity).
  decide_by_computation.
Qed.

(** ** What crosses the boundary *)

(** C2, as stated, fails: getBytes takes a [jint] after its two [jlong]
    arguments and returns a [jint]. *)
Lemma getBytes_passes_jint :
  Java_org_jitsi_impl_neomedia_jmfext_media_protocol_directshow_DSCaptureDevice_getBytes ∈ prototypes elements
  ∧ ¬ only_jlong_handles Java_org_jitsi_impl_neomedia_jmfext_media_protocol_directshow_DSCaptureDevice_getBytes.
Proof.
  split.
  - rewrite prototypes_eq. apply list_elem_of_here.
  - intros [Hargs _]. vm_compute in Hargs.
    inversion Hargs as [|? ? _ Htl]; subst.
    inversion Htl as [|? ? _ Htl']; subst.
    inversion Htl' as [|? ? Hbad _]; subst.
    discriminate Hbad.
Qed.

(** C2, amended: every declared function takes a [jlong] handle as its
    first explicit argument; the explicit arguments are [jlong], [jint]
    or [jobject] values and the results are [void], [jint], [jobject],
    [jstring] or [jobjectArray]. *)
Theorem handle_first_then_jni_values :
  Forall (fun p =>
            head (explicit_params p) = Some jlong
            ∧ Forall (fun t => t ∈ [jlong; jint; jobject]) (explicit_params p)
            ∧ proto_return p ∈ [void; jint; jobject; jstring; jobjectArray])
         (prototypes elements).
Proof. apply (Forall_declared _). vm_compute. reflexivity. Qed.

(** ** Prototypes against their doc comments *)

Lemma agrees_with_doc_sound (m : native_method) :
  agrees_with_doc m = true → agrees_with_descriptor m.
Proof.
  unfold agrees_with_doc, agrees_with_descriptor, prototype_matches.
  destruct (parse_descriptor (doc_signature m)) as [sg|]; [|discriminate].
  destruct (proto_params (decl m)) as [|e [|r args]]; try discriminate.
  intros H.
  apply andb_true_iff in H as [H Hret].
  apply andb_true_iff in H as [H Hargs].
  apply andb_true_iff in H as [He Hr].
  apply bool_decide_eq_true in He, Hargs, Hret.
  apply orb_true_iff in Hr.
  exists sg, r. subst e args. repeat split; try done.
  destruct Hr as [Hr|Hr]; apply bool_decide_eq_true in Hr; auto.
Qed.

Lemma Forall_methods (P : native_method → Prop) (check : native_method → bool) :
  (∀ m, check m = true → P m) →
  forallb check method_table = true →
  Forall P (native_methods elements).
Proof.
  intros Hsound Hall. rewrite native_methods_eq.
  apply Forall_forall. intros m Hm. apply Hsound.
  rewrite forallb_forall in Hall. apply Hall.
  by apply list_elem_of_In.
Qed.

Lemma Forall_methods_dec (P : native_method → Prop) `{!∀ m, Decision (P m)} :
  forallb (fun m => bool_decide (P m)) method_table = true →
  Forall P (native_methods elements).
Proof.
  apply Forall_methods. intros m Hm. by apply bool_decide_eq_true in Hm.
Qed.

(** C3: for every declared function the parameter list and the return
    type of the prototype are the ones the descriptor in the doc comment
    above it asks for; [(JJI)I] reads as [(jlong, jlong, jint)] returning
    [jint], [(J)V] as one [jlong] returning [void], [(J)I] as one [jlong]
    returning [jint]. Every prototype of the header has such a comment. *)
Theorem prototypes_agree_with_descriptors :
  Forall agrees_with_descriptor (native_methods elements)
  ∧ decl <$> native_methods elements = prototypes elements
  ∧ parse_descriptor "(JJI)I"
    = Some {| sig_params := [JPrim PJ; JPrim PJ; JPrim PI];
              sig_return := Some (JPrim PI) |}
  ∧ parse_descriptor "(J)V"
    = Some {| sig_params := [JPrim PJ]; sig_return := None |}
  ∧ parse_descriptor "(J)I"
    = Some {| sig_params := [JPrim PJ]; sig_return := Some (JPrim PI) |}
  ∧ ctype_of_jtype <$> [JPrim PJ; JPrim PJ; JPrim PI] = [jlong; jlong; jint]
  ∧ ctype_of_return None = void
  ∧ ctype_of_return (Some (JPrim PI)) = jint.
Proof.
  split; [|repeat split; vm_compute; reflexivity].
  apply (Forall_methods _ agrees_with_doc agrees_with_doc_sound).
  vm_compute. reflexivity.
Qed.

(** ** Linkage names *)

(** C4: the name of every declared function is [Java_], the qualified
    name of the class with its dots turned into underscores, an underscore
    and the method name that its doc comment gives; none of these names
    needs an escape, so this is the JNI mangling; and the first parameter
    is [JNIEnv *]. *)
Theorem names_follow_jni_mangling :
  Forall (fun m =>
            proto_name (decl m)
            = "Java_" +:+ dots_to_underscores class_name +:+ "_" +:+ doc_method m
            ∧ proto_name (decl m)
              = "Java_" +:+ jni_mangle class_name +:+ "_" +:+ jni_mangle (doc_method m)
            ∧ doc_class m = dots_to_underscores class_name
            ∧ head (proto_params (decl m)) = Some JNIEnv_ptr)
         (native_methods elements)
  ∧ decl <$> native_methods elements = prototypes elements.
Proof.
  split; [|vm_compute; reflexivity].
  apply (Forall_methods_dec _). vm_compute. reflexivity.
Qed.

(** ** Declarations only *)

(** C5, as stated, fails on one word: no prototype is written on one
    line. The one of getBytes takes lines 15 and 16 of the file; line 15
    alone has no parameter list. *)
Lemma prototype_spans_two_lines :
  (∃ l1 l2,
      header !! 14 = Some l1 ∧ header !! 15 = Some l2
      ∧ Statement [l1; l2] ∈ elements
      ∧ parse_prototype [l1; l2] = Some Java_org_jitsi_impl_neomedia_jmfext_media_protocol_directshow_DSCaptureDevice_getBytes
      ∧ parse_prototype [l1] = None
      ∧ declaration_only 1 (Statement [l1; l2]) = false)
  ∧ ¬ Forall (fun e => declaration_only 1 e = true) elements.
Proof.
  assert (∃ l1 l2,
      header !! 14 = Some l1 ∧ header !! 15 = Some l2
      ∧ Statement [l1; l2] ∈ elements
      ∧ parse_prototype [l1; l2] = Some Java_org_jitsi_impl_neomedia_jmfext_media_protocol_directshow_DSCaptureDevice_getBytes
      ∧ parse_prototype [l1] = None
      ∧ declaration_only 1 (Statement [l1; l2]) = false) as Hex.
  { eexists _, _. split; [reflexivity|]. split; [reflexivity|].
    split; [|repeat split; vm_compute; reflexivity].
    rewrite elements_eq. apply list_elem_of_In.
    do 9 right. left. reflexivity. }
  split; [exact Hex|].
  destruct Hex as (l1 & l2 & _ & _ & Hin & _ & _ & Hone).
  intros Hall. rewrite Forall_forall in Hall.
  apply Hall in Hin. congruence.
Qed.

Lemma two_line_prototype_sound (t : list string) :
  two_line_prototype t = true →
  ∃ l1 l2 r nm ps,
    t = [l1; l2]
    ∧ name_line l1 = Some (r, nm)
    ∧ parameter_line l2 = Some ps
    ∧ parse_prototype t
      = Some {| proto_return := r; proto_name := nm; proto_params := ps |}.
Proof.
  unfold two_line_prototype.
  destruct t as [|l1 [|l2 [|? ?]]]; try discriminate.
  destruct (name_line l1) as [[r nm]|] eqn:Hname; [|discriminate].
  destruct (parameter_line l2) as [ps|] eqn:Hparams; [|discriminate].
  destruct (parse_prototype [l1; l2]) as [p|] eqn:Hproto; [|discriminate].
  intros Hp. apply bool_decide_eq_true in Hp. subst p.
  by exists l1, l2, r, nm, ps.
Qed.

Example split_elsewhere_is_another_layout :
  two_line_prototype ["JNIEXPORT jint JNICALL f"; "  (JNIEnv *, jobject);"] = true
  ∧ two_line_prototype ["JNIEXPORT jint"; "JNICALL f (JNIEnv *, jobject);"] = false
  ∧ two_line_prototype ["JNIEXPORT jint JNICALL f (JNIEnv *,"; "  jobject);"] = false
  ∧ two_line_prototype ["JNIEXPORT jint JNICALL f (JNIEnv *, jobject);"] = false
  ∧ declaration_layout (Directive (OtherDirective "#pragma once")) = false
  ∧ declaration_layout (Comment ["/* a */ int x; /* b */"]) = false.
Proof. repeat split; vm_compute; reflexivity. Qed.

(** C5, amended: the file holds declarations and no logic. Every
    top-level element is a preprocessor directive, a comment, the opening
    or the closing line of the [extern "C"] wrapper, or a function
    prototype written on two lines, the return type and name on the first
    and the parameter list with the semicolon on the second. No function
    has a body and nothing is initialised: the only braces in the file
    are those of the wrapper and there is no [=] sign. The directives are
    the include of [jni.h] and the conditionals on the guard and on
    [__cplusplus], and every comment is opened and closed once, so that it
    hides no code. *)
Theorem declarations_and_no_logic :
  Forall (fun e => declaration_only 2 e = true) elements
  ∧ List.length (prototypes elements) = List.length (statements elements)
  ∧ List.filter (Str.contains "{") header = ["extern " +:+ C_language +:+ " {"]
  ∧ List.filter (Str.contains "}") header = ["}"]
  ∧ Forall (fun l => Str.contains "=" l = false) header
  ∧ Forall (fun e => declaration_layout e = true) elements
  ∧ Forall (fun t => ∃ l1 l2 r nm ps,
                t = [l1; l2]
                ∧ name_line l1 = Some (r, nm)
                ∧ parameter_line l2 = Some ps
                ∧ parse_prototype t
                  = Some {| proto_return := r; proto_name := nm;
                            proto_params := ps |})
           (statements elements)
  ∧ List.filter is_wrapper_line elements = [LinkageOpen C_language; BlockClose].
Proof.
  repeat split; try (vm_compute; reflexivity).
  - apply (forallb_Forall (declaration_only 2)); [done|].
    vm_compute. reflexivity.
  - apply (forallb_Forall (fun l => negb (Str.contains "=" l))).
    + intros l. by destruct (Str.contains "=" l).
    + vm_compute. reflexivity.
  - apply (forallb_Forall declaration_layout); [done|].
    vm_compute. reflexivity.
  - apply (forallb_Forall two_line_prototype); [exact two_line_prototype_sound|].
    vm_compute. reflexivity.
Qed.

(** ** Conditional inclusion, for every macro table *)

Section PreprocessorFacts.

Variable sys : string → gset string → gset string.

(** What one inclusion does, by cases on the two macros the header
    tests: its guard and [__cplusplus]. *)
Lemma include_header_cases (D : gset string) :
  include_header sys D =
    let D1 := sys "<jni.h>" D in
    if bool_decide (include_guard ∈ D1) then (D1, [])
    else ({[ include_guard ]} ∪ D1,
          if bool_decide (cplusplus ∈ D1)
          then LinkageOpen C_language :: statement_elements ++ [BlockClose]
          else statement_elements).
Proof.
  unfold include_header. rewrite elements_eq. unfold elements_nf.
  cbn [preprocess pp_step fst snd defined conds active forallb id tail app].
  destruct (decide (include_guard ∈ sys "<jni.h>" D)) as [Hg|Hg].
  - rewrite (bool_decide_eq_true_2 _ Hg).
    rewrite bool_decide_eq_false_2 by (intros Hn; by apply Hn).
    cbn. rewrite !andb_false_r. reflexivity.
  - rewrite (bool_decide_eq_false_2 _ Hg).
    rewrite (bool_decide_eq_true_2 (include_guard ∉ _) Hg).
    cbn [andb].
    assert (∀ (X : gset string), cplusplus ∈ {[ include_guard ]} ∪ X ↔ cplusplus ∈ X) as Hc.
    { intros X. rewrite elem_of_union, elem_of_singleton.
      split; [intros [Heq|HX]; [discriminate Heq|exact HX]|auto]. }
    destruct (decide (cplusplus ∈ sys "<jni.h>" D)) as [Hp|Hp].
    + rewrite !(bool_decide_eq_true_2 (cplusplus ∈ _)) by (by apply Hc).
      rewrite (bool_decide_eq_true_2 _ Hp). cbn. reflexivity.
    + rewrite !(bool_decide_eq_false_2 (cplusplus ∈ {[ _ ]} ∪ _)) by (by rewrite Hc).
      rewrite (bool_decide_eq_false_2 _ Hp). cbn. reflexivity.
Qed.



Section GuardKept.

Hypothesis jni_h_keeps_guard :
  ∀ D, include_guard ∈ D → include_guard ∈ sys "<jni.h>" D.




End GuardKept.

End PreprocessorFacts.

(** ** Linkage of the declarations *)

(** The two lines of the wrapper are each alone in a group that is read
    only when [__cplusplus] is defined, and the prototypes stand between
    the two groups. *)
Lemma wrapper_is_conditional :
  ∃ before body,
    elements
    = before
      ++ [Directive (Ifdef cplusplus); LinkageOpen C_language; Directive Endif]
      ++ body
      ++ [Directive (Ifdef cplusplus); BlockClose; Directive Endif]
      ++ [Directive Endif]
    ∧ statements before = []
    ∧ statements body = statements elements
    ∧ Forall (fun e => match e with
                       | Comment _ | Statement _ => True
                       | _ => False
                       end) body.
Proof.
  exists (take 5 elements_nf), (take 20 (drop 8 elements_nf)).
  repeat split; try (vm_compute; reflexivity).
  vm_compute. repeat constructor.
Qed.

(** C6: when the header is compiled as C++, that is with [__cplusplus]
    defined where the header's own text begins, what reaches the compiler
    is well formed, every declaration it holds stands inside the
    [extern "C"] block and so has C linkage, and unless the guard was
    already defined these declarations are the ten functions. That the
    virtual machine needs this to find the functions is outside the
    header and is not part of the statement. *)
Theorem cxx_declarations_have_C_linkage
    (sys : string → gset string → gset string) (D : gset string) :
  cplusplus ∈ sys "<jni.h>" D →
  ∃ ds,
    link [] (snd (include_header sys D)) = Some ds
    ∧ Forall (fun d => d.2 = ExternLinkage C_language
                       ∧ has_C_linkage true d.2 = true) ds
    ∧ (include_guard ∉ sys "<jni.h>" D → ds.*1 = declared_functions).
Proof.
  intros Hcxx. rewrite include_header_cases. cbn zeta.
  rewrite (bool_decide_eq_true_2 _ Hcxx).
  case_bool_decide as Hg; cbn [snd].
  - exists []. repeat split; [constructor|]. intros Hn. by destruct Hn.
  - eexists. split; [vm_compute; reflexivity|]. split.
    + apply (Forall_by_decision _). vm_compute. reflexivity.
    + intros _. vm_compute. reflexivity.
Qed.

Lemma cxx_declarations_have_C_linkage_witness :
  cplusplus ∈ sample_system_header "<jni.h>" {[ cplusplus ]}
  ∧ ∃ ds,
      link [] (snd (include_header sample_system_header {[ cplusplus ]})) = Some ds
      ∧ Forall (fun d => d.2 = ExternLinkage C_language
                         ∧ has_C_linkage true d.2 = true) ds
      ∧ (include_guard ∉ sample_system_header "<jni.h>" {[ cplusplus ]} →
         ds.*1 = declared_functions).
Proof.
  assert (cplusplus ∈ sample_system_header "<jni.h>" {[ cplusplus ]}) as Hcxx.
  { unfold sample_system_header.
    apply elem_of_union_r, elem_of_singleton. reflexivity. }
  split; [exact Hcxx|].
  exact (cxx_declarations_have_C_linkage sample_system_header {[ cplusplus ]} Hcxx).
Defined.

(** In a C translation unit the wrapper is absent and the declarations
    have the linkage of the language, which is C. *)
Lemma c_declarations_have_default_linkage
    (sys : string → gset string → gset string) (D : gset string) :
  cplusplus ∉ sys "<jni.h>" D →
  ∃ ds,
    link [] (snd (include_header sys D)) = Some ds
    ∧ Forall (fun d => d.2 = DefaultLinkage ∧ has_C_linkage false d.2 = true) ds.
Proof.
  intros Hc. rewrite include_header_cases. cbn zeta.
  rewrite (bool_decide_eq_false_2 _ Hc).
  case_bool_decide as Hg; cbn [snd].
  - exists []. split; [reflexivity|constructor].
  - eexists. split; [vm_compute; reflexivity|].
    apply (Forall_by_decision _). vm_compute. reflexivity.
Qed.

(** ** No concurrency contract *)

Example threading_text_is_no_jni_form :
  carries_only_jni (Comment ["/* Not reentrant: call from the capture thread only */"]) = false
  ∧ carries_only_jni (Comment ["/*"; " * Class:     " +:+ dots_to_underscores class_name;
                               " * Method:    stop (holds the device lock)";
                               " * Signature: (J)I"; " */"]) = false
  ∧ carries_only_jni (Statement ["extern sem_t *frame_ready;"]) = false
  ∧ carries_only_jni (Statement ["JNIEXPORT void JNICALL " +:+ entry_point "stop";
                                 "  (JNIEnv *, jobject, sem_t *, HANDLE);"]) = false
  ∧ carries_only_jni (Statement ["JNIEXPORT void JNICALL " +:+ entry_point "lock";
                                 "  (JNIEnv *, jobject, jlong);"]) = false
  ∧ carries_only_jni (Directive (OtherDirective "#pragma omp parallel")) = false
  ∧ carries_only_jni (Directive (Include "<pthread.h>")) = false.
Proof. repeat split; vm_compute; reflexivity. Qed.

(** C7: nothing in the file speaks of threads. No line, comments
    included, contains any of the words for threads, locks, atomics or
    their kin, in any letter case; the only types in the prototypes are
    [void] and the JNI value and handle types; and the only directives
    are the include of [jni.h] and the conditionals of the guard and of
    the linkage wrapper. Moreover the file holds nothing but the forms of
    a generated JNI header, with every name in them accounted for: each
    element is one of those directives, one of the two banner comments, a
    doc comment of three one-word fields (the class, one of the ten
    methods, a descriptor over the three classes listed), a line of the
    wrapper, or a prototype of one of the ten entry points over the JNI
    value types. There is no free text, no declaration of anything else
    and no type from outside [jni.h], so no synchronisation primitive,
    thread type, atomic or threading annotation, and the header puts no
    constraint on the calling threads. *)
Theorem no_concurrency_constructs :
  Forall (fun w => Forall (fun l => mentions w l = false) header) concurrency_words
  ∧ Forall (fun p => Forall (fun t => t ∈ jni_value_types)
                            (proto_return p :: proto_params p))
           (prototypes elements)
  ∧ Forall (fun e => match e with
                     | Directive d => is_conditional_or_include d = true
                     | Unknown _ => False
                     | _ => True
                     end) elements
  ∧ Forall (fun e => carries_only_jni e = true) elements
  ∧ List.length (prototypes elements) = List.length (statements elements).
Proof.
  repeat split.
  - apply (forallb_Forall
             (fun w => forallb (fun l => negb (mentions w l)) header)).
    + intros w Hw. apply (forallb_Forall (fun l => negb (mentions w l))); [|exact Hw].
      intros l. by destruct (mentions w l).
    + vm_compute. reflexivity.
  - apply (Forall_declared _). vm_compute. reflexivity.
  - apply (forallb_Forall (fun e => match e with
                                    | Directive d => is_conditional_or_include d
                                    | Unknown _ => false
                                    | _ => true
                                    end)).
    + intros [d| | | | |] He; try done.
    + vm_compute. reflexivity.
  - apply (forallb_Forall carries_only_jni); [done|].
    vm_compute. reflexivity.
Qed.

(** ** The include guard *)




(** ** Static and instance methods *)

(** C9: getBytes is the only static method: its second parameter is
    [jclass], and the second parameter of each of the nine other
    functions is [jobject]. *)
Theorem getBytes_is_the_only_static_method :
  Forall (fun p =>
            (proto_name p = entry_point "getBytes" → receiver p = Some jclass)
            ∧ (proto_name p ≠ entry_point "getBytes" → receiver p = Some jobject))
         (prototypes elements)
  ∧ proto_name <$> List.filter (fun p => bool_decide (receiver p = Some jclass))
                               (prototypes elements)
    = [entry_point "getBytes"]
  ∧ proto_name <$> List.filter (fun p => bool_decide (receiver p = Some jobject))
                               (prototypes elements)
    = entry_point <$> ["connect"; "disconnect"; "getFormat"; "getName";
                       "getSupportedFormats"; "setDelegate"; "setFormat";
                       "start"; "stop"].
Proof.
  split; [|split; vm_compute; reflexivity].
  apply (Forall_declared _). vm_compute. reflexivity.
Qed.

(** ** Return types *)

(** C10: the return types split the interface in three: connect,
    disconnect and setDelegate return [void]; getBytes, setFormat, start
    and stop return [jint]; getFormat, getName and getSupportedFormats
    return the references [jobject], [jstring] and [jobjectArray]. So a
    function whose result is neither absent nor a reference, the only
    kind that can carry a status code, returns [jint]. *)
Theorem return_types_partition :
  proto_name <$> List.filter (returns void) (prototypes elements)
  = entry_point <$> ["connect"; "disconnect"; "setDelegate"]
  ∧ proto_name <$> List.filter (returns jint) (prototypes elements)
    = entry_point <$> ["getBytes"; "setFormat"; "start"; "stop"]
  ∧ proto_name <$> List.filter (returns jobject) (prototypes elements)
    = [entry_point "getFormat"]
  ∧ proto_name <$> List.filter (returns jstring) (prototypes elements)
    = [entry_point "getName"]
  ∧ proto_name <$> List.filter (returns jobjectArray) (prototypes elements)
    = [entry_point "getSupportedFormats"]
  ∧ Forall (fun p => proto_return p ≠ void →
                     is_reference_type (proto_return p) = false →
                     proto_return p = jint)
           (prototypes elements).
Proof.
  repeat split; try (vm_compute; reflexivity).
  apply (Forall_declared _). vm_compute. reflexivity.
Qed.

(** * The header inside a translation unit

    What follows is about the includer's side: the macro table the header
    leaves behind, its behaviour inside the includer's own conditional
    groups and linkage blocks, and the text it hands to the compiler in
    each language. *)

(** ** One inclusion, inside any stack of conditional groups *)

Lemma preprocess_header_cases
    (sys : string → gset string → gset string) (D : gset string) (cs : list bool) :
  preprocess sys {| defined := D; conds := cs |} elements =
    if forallb id cs then
      ({| defined := {[ include_guard ]} ∪ sys "<jni.h>" D; conds := cs |},
       snd (include_header sys D))
    else ({| defined := D; conds := cs |}, []).
Proof.
  rewrite include_header_cases. cbn zeta.
  rewrite elements_eq. unfold elements_nf.
  cbn [preprocess pp_step fst snd defined conds active forallb id tail app].
  destruct (forallb id cs) eqn:Hcs.
  - rewrite !andb_true_r.
    assert (∀ (X : gset string), cplusplus ∈ {[ include_guard ]} ∪ X ↔ cplusplus ∈ X) as Hc.
    { intros X. rewrite elem_of_union, elem_of_singleton.
      split; [intros [Heq|HX]; [discriminate Heq|exact HX]|auto]. }
    destruct (decide (include_guard ∈ sys "<jni.h>" D)) as [Hg|Hg].
    + rewrite (bool_decide_eq_true_2 _ Hg).
      rewrite bool_decide_eq_false_2 by (intros Hn; by apply Hn).
      cbn. rewrite !andb_false_r. cbn [snd]. f_equal. f_equal.
      apply leibniz_equiv. intros x.
      rewrite elem_of_union, elem_of_singleton.
      split; [auto|intros [->|Hx]; auto].
    + rewrite (bool_decide_eq_false_2 _ Hg).
      rewrite (bool_decide_eq_true_2 (include_guard ∉ _) Hg).
      cbn [andb].
      destruct (decide (cplusplus ∈ sys "<jni.h>" D)) as [Hp|Hp].
      * rewrite !(bool_decide_eq_true_2 (cplusplus ∈ _)) by (by apply Hc).
        rewrite (bool_decide_eq_true_2 _ Hp). cbn. reflexivity.
      * rewrite !(bool_decide_eq_false_2 (cplusplus ∈ {[ _ ]} ∪ _)) by (by rewrite Hc).
        rewrite (bool_decide_eq_false_2 _ Hp). cbn. reflexivity.
  - rewrite !andb_false_r. cbn. reflexivity.
Qed.

Lemma prototypes_of_output :
  prototypes statement_elements = declared_functions
  ∧ prototypes (LinkageOpen C_language :: statement_elements ++ [BlockClose])
    = declared_functions.
Proof. split; vm_compute; reflexivity. Qed.

Lemma include_header_table
    (sys : string → gset string → gset string) (D : gset string) :
  fst (include_header sys D) = {[ include_guard ]} ∪ sys "<jni.h>" D.
Proof. unfold include_header. rewrite preprocess_header_cases. reflexivity. Qed.

(** X1: after one inclusion the macro table is what reading [jni.h] made
    of it, with the guard added. The header defines no other macro and
    undefines none, and [jni.h] is read on every inclusion, before the
    guard is tested. *)
Theorem header_defines_only_its_guard
    (sys : string → gset string → gset string) (D : gset string) :
  fst (include_header sys D) = {[ include_guard ]} ∪ sys "<jni.h>" D
  ∧ ∀ m, m ≠ include_guard →
         (m ∈ fst (include_header sys D) ↔ m ∈ sys "<jni.h>" D).
Proof.
  pose proof (include_header_table sys D) as Heq.
  split; [exact Heq|].
  intros m Hm. rewrite Heq, elem_of_union, elem_of_singleton.
  split; [intros [Hbad|Hin]; [contradiction|exact Hin]|auto].
Qed.

(** X2: the header contributes nothing exactly when its guard is defined
    at the point where it is tested, that is once [jni.h] has been read;
    otherwise the prototypes it contributes are the ten functions, in the
    order of the file. *)
Theorem contributes_iff_guard_undefined
    (sys : string → gset string → gset string) (D : gset string) :
  (snd (include_header sys D) = [] ↔ include_guard ∈ sys "<jni.h>" D)
  ∧ prototypes (snd (include_header sys D))
    = if bool_decide (include_guard ∈ sys "<jni.h>" D) then [] else declared_functions.
Proof.
  rewrite include_header_cases. cbn zeta.
  case_bool_decide as Hg; cbn [snd].
  - split; [tauto|reflexivity].
  - case_bool_decide; (split; [split; [discriminate|contradiction]|]);
      cbn [snd]; apply prototypes_of_output.
Qed.

(** X3: inside conditional groups of the includer that are all taken,
    the header does what it does at top level, and when it ends the stack
    of open groups is the includer's again: every group the header opens
    it closes, and it closes no other. *)
Theorem header_in_taken_groups
    (sys : string → gset string → gset string) (D : gset string) (cs : list bool) :
  forallb id cs = true →
  preprocess sys {| defined := D; conds := cs |} elements
  = ({| defined := fst (include_header sys D); conds := cs |},
     snd (include_header sys D)).
Proof.
  intros Hcs. rewrite preprocess_header_cases, Hcs.
  rewrite include_header_table. reflexivity.
Qed.

Lemma header_in_taken_groups_witness :
  forallb id [true; true] = true
  ∧ preprocess sample_system_header {| defined := ∅; conds := [true; true] |} elements
    = ({| defined := fst (include_header sample_system_header ∅);
          conds := [true; true] |},
       snd (include_header sample_system_header ∅)).
Proof.
  split; [reflexivity|].
  exact (header_in_taken_groups sample_system_header ∅ [true; true] eq_refl).
Defined.

(** X4: inside a group of the includer that is skipped the header has no
    effect at all: nothing reaches the compiler, [jni.h] is not read, the
    guard is not defined, and the stack of open groups is unchanged. *)
Theorem header_in_skipped_group
    (sys : string → gset string → gset string) (D : gset string) (cs : list bool) :
  forallb id cs = false →
  preprocess sys {| defined := D; conds := cs |} elements
  = ({| defined := D; conds := cs |}, []).
Proof.
  intros Hcs. rewrite preprocess_header_cases, Hcs. reflexivity.
Qed.

Lemma header_in_skipped_group_witness :
  forallb id [true; false] = false
  ∧ preprocess sample_system_header {| defined := ∅; conds := [true; false] |} elements
    = ({| defined := ∅; conds := [true; false] |}, []).
Proof.
  split; [reflexivity|].
  exact (header_in_skipped_group sample_system_header ∅ [true; false] eq_refl).
Defined.

(** ** Linkage in either language *)

(** X5: in every translation unit, C or C++, what the header contributes
    is well formed for the linkage pass and every declaration in it has C
    linkage: through the wrapper when [__cplusplus] is defined, by the
    default of the language when it is not. The functions declared are
    the same ten in both languages. *)
Theorem C_linkage_in_both_languages
    (sys : string → gset string → gset string) (D : gset string) :
  ∃ ds,
    link [] (snd (include_header sys D)) = Some ds
    ∧ Forall (fun d => has_C_linkage (bool_decide (cplusplus ∈ sys "<jni.h>" D)) d.2
                       = true) ds
    ∧ ds.*1 = if bool_decide (include_guard ∈ sys "<jni.h>" D)
              then [] else declared_functions.
Proof.
  rewrite include_header_cases. cbn zeta.
  case_bool_decide as Hg; cbn [snd].
  - exists []. repeat split. constructor.
  - destruct (decide (cplusplus ∈ sys "<jni.h>" D)) as [Hc|Hc].
    + rewrite !(bool_decide_eq_true_2 _ Hc). eexists.
      split; [vm_compute; reflexivity|].
      split; [apply (Forall_by_decision _)|]; vm_compute; reflexivity.
    + rewrite !(bool_decide_eq_false_2 _ Hc). eexists.
      split; [vm_compute; reflexivity|].
      split; [apply (Forall_by_decision _)|]; vm_compute; reflexivity.
Qed.

(** X6: when [__cplusplus] is not defined, nothing but statements
    reaches the compiler: neither line of the [extern "C"] wrapper, which
    a C compiler would reject, is let through. *)
Theorem c_compiler_sees_no_wrapper
    (sys : string → gset string → gset string) (D : gset string) :
  cplusplus ∉ sys "<jni.h>" D →
  Forall (fun e => is_statement e = true) (snd (include_header sys D))
  ∧ (snd (include_header sys D) = [] ∨ snd (include_header sys D) = statement_elements).
Proof.
  intros Hc. rewrite include_header_cases. cbn zeta.
  rewrite (bool_decide_eq_false_2 _ Hc).
  case_bool_decide as Hg; cbn [snd].
  - split; [constructor|by left].
  - split; [|by right].
    apply (forallb_Forall is_statement); [done|]. vm_compute. reflexivity.
Qed.

Lemma c_compiler_sees_no_wrapper_witness :
  (cplusplus ∉ sample_system_header "<jni.h>" ∅)
  ∧ Forall (fun e => is_statement e = true)
           (snd (include_header sample_system_header ∅))
  ∧ (snd (include_header sample_system_header ∅) = []
     ∨ snd (include_header sample_system_header ∅) = statement_elements).
Proof.
  assert (cplusplus ∉ sample_system_header "<jni.h>" ∅) as Hc.
  { apply (bool_decide_unpack _). vm_compute. exact I. }
  split; [exact Hc|].
  exact (c_compiler_sees_no_wrapper sample_system_header ∅ Hc).
Defined.

(** ** The header among the includer's own declarations *)

Lemma link_statement (blocks : list string) (t : list string) (p : prototype)
    (es : list element) :
  parse_prototype t = Some p →
  link blocks (Statement t :: es)
  = (fun ds => (p, current_linkage blocks) :: ds) <$> link blocks es.
Proof.
  intros Hp. cbn [link]. rewrite Hp. cbn.
  destruct (link blocks es); reflexivity.
Qed.

Lemma link_statements (blocks : list string) (ts : list (list string))
    (ps : list prototype) (rest : list element) :
  Forall2 (fun t p => parse_prototype t = Some p) ts ps →
  link blocks ((Statement <$> ts) ++ rest)
  = (fun ds => ((fun p => (p, current_linkage blocks)) <$> ps) ++ ds)
      <$> link blocks rest.
Proof.
  induction 1 as [|t p ts ps Hp _ IH]; cbn [fmap list_fmap app].
  - destruct (link blocks rest); reflexivity.
  - rewrite (link_statement _ _ _ _ Hp), IH.
    destruct (link blocks rest); reflexivity.
Qed.

Lemma statements_parse :
  statement_elements = Statement <$> statements elements
  ∧ Forall2 (fun t p => parse_prototype t = Some p)
            (statements elements) declared_functions.
Proof.
  split; [vm_compute; reflexivity|].
  let ts := eval vm_compute in (statements elements) in
  replace (statements elements) with ts by (vm_compute; reflexivity).
  unfold declared_functions.
  repeat (constructor; [vm_compute; reflexivity|]). constructor.
Qed.

(** X7: the header can stand anywhere among the includer's declarations,
    inside any linkage blocks of the includer: its own text is linked
    without error, the blocks open after it are the ones open before it,
    and the text that follows is linked as it would be without the
    header. The header's own declarations are none when the guard is
    defined where it is tested; otherwise they are the ten functions,
    with the [extern "C"] of the wrapper when [__cplusplus] is defined
    and with the linkage of the enclosing block, or the default, when it
    is not. *)
Theorem header_is_linkage_transparent
    (sys : string → gset string → gset string) (D : gset string)
    (blocks : list string) (rest : list element) :
  link blocks (snd (include_header sys D) ++ rest)
  = (fun ds =>
       (if bool_decide (include_guard ∈ sys "<jni.h>" D) then []
        else if bool_decide (cplusplus ∈ sys "<jni.h>" D)
             then (fun p => (p, ExternLinkage C_language)) <$> declared_functions
             else (fun p => (p, current_linkage blocks)) <$> declared_functions)
       ++ ds)
      <$> link blocks rest.
Proof.
  destruct statements_parse as [Hst Hparse].
  rewrite include_header_cases. cbn zeta.
  case_bool_decide as Hg; cbn [snd].
  - cbn [app]. destruct (link blocks rest); reflexivity.
  - case_bool_decide as Hc.
    + cbn [app link]. rewrite <- app_assoc, Hst.
      rewrite (link_statements _ _ _ _ Hparse). cbn [app link current_linkage].
      reflexivity.
    + rewrite Hst. apply link_statements, Hparse.
Qed.
